(** * ReduceLROnPlateau: the plateau learning-rate scheduler component

    A shallow embedding of
    [autoPyTorch/pipeline/components/setup/lr_scheduler/ReduceLROnPlateau.py].

    The component is an adapter: it keeps a configuration (mode, factor,
    patience, random state), builds the scheduler of the optimisation
    library in [fit], and describes its tunable parameters.  Python objects
    live in a heap, so that "returns self", "stores the handle" and "a newly
    constructed scheduler" are statements about references.  The scheduler
    class of the optimisation library is outside the file; it is an interface
    ([Runtime]) that every result below is proved for. *)

From Stdlib Require Import ZArith.
From Stdlib Require Import Floats.PrimFloat Floats.SpecFloat Floats.FloatOps.
From stdpp Require Import gmap strings list fin_maps.

Set Warnings "-inexact-float".
Open Scope Z_scope.

(** ** Python numbers, exceptions and results *)

(** The numeric values a hyperparameter can hold: [int] (unbounded) and
    [float] (binary64). *)
Inductive number :=
| PyInt (n : Z)
| PyFloat (x : float).

Inductive exn (E : Type) :=
| ValueError (msg : string)
| OverflowError (msg : string)
| KeyError (key : string)
| AttributeError (name : string)
| LibraryError (e : E).
Arguments ValueError {E} msg.
Arguments OverflowError {E} msg.
Arguments KeyError {E} key.
Arguments AttributeError {E} name.
Arguments LibraryError {E} e.

Inductive result (E A : Type) :=
| Return (a : A)
| Raise (e : exn E).
Arguments Return {E A} a.
Arguments Raise {E A} e.

(** ** The configuration-space library (ConfigSpace) *)

Inductive Hyperparameter :=
| CategoricalHyperparameter (name : string) (choices : list string)
| UniformIntegerHyperparameter (name : string) (lower upper : Z) (default_value : Z)
| UniformFloatHyperparameter (name : string) (lower upper : float) (default_value : float).

Definition hp_name (hp : Hyperparameter) : string :=
  match hp with
  | CategoricalHyperparameter name _ => name
  | UniformIntegerHyperparameter name _ _ _ => name
  | UniformFloatHyperparameter name _ _ _ => name
  end.

(** A configuration space maps the name of a hyperparameter to it. *)
Abbreviation ConfigurationSpace := (gmap string Hyperparameter).

(** [cs.add_hyperparameters(hps)]: the hyperparameters are added one after
    the other; a name that is already in the space is refused. *)
Fixpoint add_hyperparameters {E} (cs : ConfigurationSpace) (hps : list Hyperparameter)
  : result E ConfigurationSpace :=
  match hps with
  | [] => Return cs
  | hp :: rest =>
      match cs !! hp_name hp with
      | Some _ => Raise (ValueError "Hyperparameter is already in the configuration space")
      | None => add_hyperparameters (<[hp_name hp := hp]> cs) rest
      end
  end.

(** ** The optimisation library and the other collaborators

    What the component receives from its callers and what it calls in the
    optimisation library.  [lr_scheduler_ReduceLROnPlateau optimizer mode
    factor patience] is the constructor call
    [torch.optim.lr_scheduler.ReduceLROnPlateau(optimizer=.., mode=..,
    factor=.., patience=..)]: it gives the state of the new scheduler object,
    or the error the library raises for arguments it refuses. *)
Class Runtime := {
  Any : Type;
  ndarray : Type;
  RandomState : Type;
  LRScheduler : Type;
  LibraryException : Type;
  lr_scheduler_ReduceLROnPlateau :
    Any → string → float → Z → LibraryException + LRScheduler;
}.

Abbreviation loc := positive.

Section Component.

Context `{RT : Runtime}.

(** *** Objects and the heap *)

(** The attributes of an instance of the class. *)
Record ReduceLROnPlateau := {
  mode : string;
  factor : number;
  patience : number;
  random_state : option RandomState;
  scheduler : option loc;
}.

Inductive object :=
| Component (c : ReduceLROnPlateau)
| Scheduler (s : LRScheduler).

Abbreviation heap := (gmap loc object).
Abbreviation exception := (exn LibraryException).
Abbreviation outcome := (result LibraryException).

(** *** The built-in coercions *)

(** [float(v)]: a float is returned as it is; an int is rounded to the
    nearest binary64 (ties to even) and is rejected when it is out of
    range. *)
Definition py_float (v : number) : outcome float :=
  match v with
  | PyFloat x => Return x
  | PyInt n =>
      match binary_normalize prec emax n 0 false with
      | S754_infinity _ => Raise (OverflowError "int too large to convert to float")
      | r => Return (SF2Prim r)
      end
  end.

(** Truncation of a finite binary64 [(-1)^s * m * 2^e] towards zero. *)
Definition trunc (s : bool) (m : positive) (e : Z) : Z :=
  let a := if 0 <=? e then Z.pos m * 2 ^ e else Z.pos m / 2 ^ (- e) in
  if s then - a else a.

(** [int(v)]: an int is returned as it is; a float is truncated towards
    zero, NaN and the infinities are rejected. *)
Definition py_int (v : number) : outcome Z :=
  match v with
  | PyInt n => Return n
  | PyFloat x =>
      match Prim2SF x with
      | S754_nan => Raise (ValueError "cannot convert float NaN to integer")
      | S754_infinity _ => Raise (OverflowError "cannot convert float infinity to integer")
      | S754_zero _ => Return 0
      | S754_finite s m e => Return (trunc s m e)
      end
  end.

(** *** Computations: a heap is threaded, an exception ends the call *)

Definition M (A : Type) : Type := heap → heap * outcome A.

#[export] Instance M_ret : MRet M := λ A a σ, (σ, Return a).

#[export] Instance M_bind : MBind M := λ A B k m σ,
  match m σ with
  | (σ', Return a) => k a σ'
  | (σ', Raise e) => (σ', Raise e)
  end.

Definition raise {A} (e : exception) : M A := λ σ, (σ, Raise e).

Definition lift {A} (r : outcome A) : M A := λ σ, (σ, r).

(** [d[key]] *)
Definition getitem {V} (d : gmap string V) (key : string) : M V :=
  match d !! key with
  | Some v => mret v
  | None => raise (KeyError key)
  end.

(** [self.field], for [self] an instance of the class.  The methods are
    called on instances; for an object that is no instance the model answers
    [AttributeError] and does not follow what the attribute access of the
    language would find there. *)
Definition getattr {A} (self : loc) (field : ReduceLROnPlateau → A) : M A := λ σ,
  match σ !! self with
  | Some (Component c) => (σ, Return (field c))
  | _ => (σ, Raise (AttributeError "ReduceLROnPlateau"))
  end.

Definition with_scheduler (c : ReduceLROnPlateau) (s : option loc) : ReduceLROnPlateau :=
  {| mode := mode c; factor := factor c; patience := patience c;
     random_state := random_state c; scheduler := s |}.

(** [self.scheduler = s], for [self] an instance of the class (for another
    object the model answers [AttributeError], as [getattr] does). *)
Definition set_scheduler (self : loc) (s : option loc) : M unit := λ σ,
  match σ !! self with
  | Some (Component c) => (<[self := Component (with_scheduler c s)]> σ, Return ())
  | _ => (σ, Raise (AttributeError "ReduceLROnPlateau"))
  end.

(** A new object gets an address no object has. *)
Definition new (o : object) : M loc := λ σ,
  let l := fresh (dom σ) in (<[l := o]> σ, Return l).

(** The constructor call of the library: the arguments are checked and
    the state of the scheduler is built by the library, the object is
    allocated. *)
Definition new_ReduceLROnPlateau (optimizer : Any) (mode : string)
    (factor : float) (patience : Z) : M loc :=
  match lr_scheduler_ReduceLROnPlateau optimizer mode factor patience with
  | inl e => raise (LibraryError e)
  | inr s => new (Scheduler s)
  end.

(** *** The methods of the class *)

(** [ReduceLROnPlateau(mode, factor, patience, random_state)]: the instance
    is allocated and [__init__] assigns its five attributes; the
    initialiser of the base class runs before the assignments. *)
Definition __init__ (mode : string) (factor patience : number)
    (random_state : option RandomState) : M loc :=
  new (Component {| mode := mode; factor := factor; patience := patience;
                    random_state := random_state; scheduler := None |}).

(** The error [fit] raises when the call has no optimizer. *)
Definition missing_optimizer : exception :=
  ValueError "Cannot use scheduler without an optimizer to wrap".

Definition fit (self : loc) (X y : ndarray) (fit_params : gmap string Any) : M loc :=
  (* Make sure there is an optimizer *)
  if decide ("optimizer" ∉ dom fit_params)
  then raise missing_optimizer
  else
    optimizer ← getitem fit_params "optimizer";
    m ← getattr self mode;
    f ← getattr self factor ≫= (lift ∘ py_float);
    p ← getattr self patience ≫= (lift ∘ py_int);
    s ← new_ReduceLROnPlateau optimizer m f p;
    set_scheduler self (Some s);;
    mret self.

Definition transform (self : loc) (X : ndarray) : M ndarray :=
  mret X.

Definition get_properties (dataset_properties : option (gmap string Any))
  : M (gmap string string) :=
  mret {[ "shortname" := "CosineAnnealingWarmRestarts";
          "name" := "Cosine Annealing WarmRestarts" ]}.

Definition get_hyperparameter_search_space (dataset_properties : option (gmap string Any))
  : M ConfigurationSpace :=
  let mode := CategoricalHyperparameter "mode" ["min"; "max"] in
  let patience := UniformIntegerHyperparameter "patience" 5 20 10 in
  let factor := UniformFloatHyperparameter "factor" 0.01 0.9 0.1 in
  let cs := ∅ in
  cs ← lift (add_hyperparameters cs [mode; patience; factor]);
  mret cs.

(** *** The calls of the pipeline

    The pipeline constructs instances and calls their methods, in any
    order; an exception ends a call, not the run: the heap is what the call
    left. *)
Inductive call :=
| Construct (mode : string) (factor patience : number)
    (random_state : option RandomState)
| Fit (self : loc) (X y : ndarray) (fit_params : gmap string Any)
| Transform (self : loc) (X : ndarray)
| GetProperties (dataset_properties : option (gmap string Any))
| GetHyperparameterSearchSpace (dataset_properties : option (gmap string Any)).

Definition exec (σ : heap) (c : call) : heap :=
  match c with
  | Construct m f p rs => (__init__ m f p rs σ).1
  | Fit self X y fit_params => (fit self X y fit_params σ).1
  | Transform self X => (transform self X σ).1
  | GetProperties dp => (get_properties dp σ).1
  | GetHyperparameterSearchSpace dp => (get_hyperparameter_search_space dp σ).1
  end.

Definition run (σ : heap) (calls : list call) : heap := foldl exec σ calls.

(** The heaps a program can be in: it starts with no object. *)
Definition reachable (σ : heap) : Prop := ∃ calls, σ = run ∅ calls.


(** Every exception of a call that has an optimizer is raised outside
    [fit]: by the attribute access on something that is no instance, by
    [float()], by [int()] or by the library. *)
Definition raised_outside_fit (σ : heap) (self : loc) (optimizer : Any)
    (e : exception) : Prop :=
  match σ !! self with
  | Some (Component c) =>
      py_float (factor c) = Raise e
      ∨ (∃ f, py_float (factor c) = Return f
              ∧ py_int (patience c) = Raise e)
      ∨ (∃ f p e', py_float (factor c) = Return f
                   ∧ py_int (patience c) = Return p
                   ∧ lr_scheduler_ReduceLROnPlateau optimizer (mode c) f p = inl e'
                   ∧ e = LibraryError e')
  | _ => e = AttributeError "ReduceLROnPlateau"
  end.

Definition is_KeyError (e : exception) : bool :=
  match e with
  | KeyError _ => true
  | _ => false
  end.

(** Whether a call is a [fit] on the instance [self]. *)
Definition fits (self : loc) (a : call) : bool :=
  match a with
  | Fit self' _ _ _ => bool_decide (self' = self)
  | _ => false
  end.

(** The numbers that are an int or a float other than NaN and the
    infinities. *)
Definition py_finite (v : number) : bool :=
  match v with
  | PyInt _ => true
  | PyFloat x => negb (is_nan x) && negb (is_infinity x)
  end.

(** The handle of every fitted instance refers to a scheduler that the
    library built for the mode, the coerced factor and the coerced patience
    the instance holds. *)
Definition built_from_configuration (σ : heap) : Prop :=
  ∀ self c h,
    σ !! self = Some (Component c) → scheduler c = Some h →
    ∃ optimizer f p s,
      py_float (factor c) = Return f
      ∧ py_int (patience c) = Return p
      ∧ lr_scheduler_ReduceLROnPlateau optimizer (mode c) f p = inr s
      ∧ σ !! h = Some (Scheduler s).

(** No scheduler is the scheduler of two instances. *)
Definition unshared (σ : heap) : Prop :=
  ∀ self1 self2 c1 c2 h,
    σ !! self1 = Some (Component c1) → σ !! self2 = Some (Component c2) →
    scheduler c1 = Some h → scheduler c2 = Some h →
    self1 = self2.

End Component.

(** ** A runtime to run the component on concrete inputs

    Arrays are lists of rows, the objects of a call context are optimizers
    or [None], a scheduler records the arguments it was constructed with.
    The constructor refuses a factor of 1.0 or more, a context value that is
    no optimizer and a mode other than min and max. *)
Module Sample.

Inductive value :=
| NoneValue
| Optimizer (name : string) (lr : float).

Record plateau := {
  optimizer : value;
  mode : string;
  factor : float;
  patience : Z;
}.

Inductive error :=
| FactorTooLarge
| NotAnOptimizer
| UnknownMode (mode : string).

Definition construct (optimizer : value) (mode : string) (factor : float)
    (patience : Z) : error + plateau :=
  if (1.0 <=? factor)%float then inl FactorTooLarge
  else match optimizer with
       | NoneValue => inl NotAnOptimizer
       | Optimizer _ _ =>
           if bool_decide (mode ∈ ["min"; "max"])
           then inr {| optimizer := optimizer; mode := mode;
                       factor := factor; patience := patience |}
           else inl (UnknownMode mode)
       end.

#[export] Instance runtime : Runtime := {|
  Any := value;
  ndarray := list (list float);
  RandomState := Z;
  LRScheduler := plateau;
  LibraryException := error;
  lr_scheduler_ReduceLROnPlateau := construct;
|}.

Definition sgd : value := Optimizer "SGD" 0.01.

End Sample.

(** ** A scenario: construct, then fit with an optimizer and empty arrays *)
Module Scenario.

#[local] Existing Instance Sample.runtime.

Definition adapter : loc := 1%positive.

Definition unfit : gmap loc object :=
  (__init__ "min" (PyFloat 0.5) (PyInt 10) None ∅).1.

Definition context : gmap string Sample.value := {[ "optimizer" := Sample.sgd ]}.

Definition fitted : gmap loc object :=
  (fit adapter [] [] context unfit).1.

Definition history : list call :=
  [Construct "min" (PyFloat 0.5) (PyInt 10) None; Fit adapter [] [] context].

Definition built : Sample.plateau :=
  {| Sample.optimizer := Sample.sgd; Sample.mode := "min";
     Sample.factor := 0.5; Sample.patience := 10 |}.

Definition configuration : ReduceLROnPlateau :=
  {| mode := "min"; factor := PyFloat 0.5; patience := PyInt 10;
     random_state := None; scheduler := None |}.

(** A second instance, fitted with the same optimizer. *)
Definition second : loc := 3%positive.

Definition second_configuration : ReduceLROnPlateau :=
  {| mode := "max"; factor := PyFloat 0.25; patience := PyFloat 7.9;
     random_state := Some 42; scheduler := None |}.

Definition more : list call :=
  [Construct "max" (PyFloat 0.25) (PyFloat 7.9) (Some 42); Fit second [] [] context].

Definition both_fitted : gmap loc object := run fitted more.

(** Calls of [fit] on the first instance that raise, and calls of the
    other methods. *)
Definition failing : list call :=
  [Fit adapter [] [] ∅; Fit adapter [] [] {[ "optimizer" := Sample.NoneValue ]};
   Transform adapter []; GetProperties None; GetHyperparameterSearchSpace None].

End Scenario.

(** ** Properties *)

Section Properties.

Context `{RT : Runtime}.

Implicit Types (σ : gmap loc object) (self l : loc) (c : ReduceLROnPlateau)
  (X y : ndarray) (fit_params : gmap string Any).

(** *** What [fit] computes, case by case *)

Lemma fit_without_optimizer σ self X y fit_params :
  fit_params !! "optimizer" = None →
  fit self X y fit_params σ = (σ, Raise missing_optimizer).
Proof.
  intros Hno. unfold fit.
  case_decide as Hdom; [done|].
  apply elem_of_dom in Hdom as [v Hv]. congruence.
Qed.

Lemma fit_not_an_instance σ self X y fit_params optimizer :
  fit_params !! "optimizer" = Some optimizer →
  (∀ c, σ !! self ≠ Some (Component c)) →
  fit self X y fit_params σ = (σ, Raise (AttributeError "ReduceLROnPlateau")).
Proof.
  intros Hopt Hself. unfold fit.
  case_decide as Hdom.
  { apply not_elem_of_dom in Hdom. congruence. }
  unfold mbind, M_bind, getitem. rewrite Hopt. unfold mret, M_ret, getattr.
  destruct (σ !! self) as [[c|s]|] eqn:E; try done.
  by destruct (Hself c).
Qed.

Lemma fit_with_optimizer σ self c X y fit_params optimizer :
  fit_params !! "optimizer" = Some optimizer →
  σ !! self = Some (Component c) →
  fit self X y fit_params σ =
    match py_float (factor c) with
    | Raise e => (σ, Raise e)
    | Return f =>
        match py_int (patience c) with
        | Raise e => (σ, Raise e)
        | Return p =>
            match lr_scheduler_ReduceLROnPlateau optimizer (mode c) f p with
            | inl e => (σ, Raise (LibraryError e))
            | inr s =>
                let l := fresh (dom σ) in
                (<[self := Component (with_scheduler c (Some l))]>
                   (<[l := Scheduler s]> σ), Return self)
            end
        end
    end.
Proof.
  intros Hopt Hself. unfold fit.
  case_decide as Hdom.
  { apply not_elem_of_dom in Hdom. congruence. }
  unfold mbind, M_bind, getitem. rewrite Hopt.
  unfold mret, M_ret, getattr, lift, compose.
  rewrite !Hself; cbv beta iota zeta.
  destruct (py_float (factor c)) as [f|e]; [|done].
  rewrite ?Hself; cbv beta iota zeta.
  destruct (py_int (patience c)) as [p|e]; [|done].
  unfold new_ReduceLROnPlateau, raise, new.
  destruct (lr_scheduler_ReduceLROnPlateau optimizer (mode c) f p) as [e|s]; [done|].
  unfold set_scheduler. cbv zeta.
  assert (fresh (dom σ) ≠ self) as Hne.
  { intros Heq. apply (is_fresh (dom σ)). rewrite Heq.
    apply elem_of_dom. by eexists. }
  rewrite lookup_insert_ne by done. by rewrite Hself.
Qed.

(** *** The outcomes of [fit] *)

(** [C1] (amended) For every stored configuration (mode, factor,
    patience) and every call that has an optimizer: [fit] evaluates
    [float(factor)] and [int(patience)] and calls the constructor of the
    library on the optimizer of the call, the stored mode, the coerced factor
    and the coerced patience.  When the three return, [fit] returns the
    instance it was called on, the scheduler is a new object, the [scheduler]
    attribute of the instance is the handle of this object, the four other
    attributes are as before and no other object changes.  When one of them
    raises, [fit] raises the same exception and changes nothing. *)
Theorem fit_builds_and_stores σ self c X y fit_params optimizer :
  σ !! self = Some (Component c) →
  fit_params !! "optimizer" = Some optimizer →
  (∀ f p s,
      py_float (factor c) = Return f →
      py_int (patience c) = Return p →
      lr_scheduler_ReduceLROnPlateau optimizer (mode c) f p = inr s →
      ∃ l σ',
        fit self X y fit_params σ = (σ', Return self)
        ∧ (l ∉ dom σ)
        ∧ σ' !! l = Some (Scheduler s)
        ∧ σ' !! self =
            Some (Component {| mode := mode c; factor := factor c;
                               patience := patience c;
                               random_state := random_state c;
                               scheduler := Some l |})
        ∧ ∀ l', l' ≠ l → l' ≠ self → σ' !! l' = σ !! l')
  ∧ (∀ e, raised_outside_fit σ self optimizer e →
          fit self X y fit_params σ = (σ, Raise e)).
Proof.
  intros Hself Hopt.
  rewrite (fit_with_optimizer _ _ c _ _ _ optimizer) by done.
  split.
  - intros f p s Hf Hp Hs. rewrite Hf, Hp, Hs. cbv zeta.
    assert (fresh (dom σ) ≠ self) as Hne.
    { intros Heq. apply (is_fresh (dom σ)). rewrite Heq.
      apply elem_of_dom. by eexists. }
    eexists _, _. split_and!; [reflexivity|apply is_fresh| | |].
    + rewrite lookup_insert_ne by done. apply lookup_insert_eq.
    + by rewrite lookup_insert_eq.
    + intros l' Hl Hl'. by rewrite !lookup_insert_ne.
  - intros e. unfold raised_outside_fit. rewrite Hself.
    intros [Hf|[(f & Hf & Hp)|(f & p & e' & Hf & Hp & Hs & ->)]].
    + by rewrite Hf.
    + by rewrite Hf, Hp.
    + by rewrite Hf, Hp, Hs.
Qed.

Lemma fit_raises σ self X y fit_params optimizer e :
  fit_params !! "optimizer" = Some optimizer →
  (fit self X y fit_params σ).2 = Raise e →
  raised_outside_fit σ self optimizer e.
Proof.
  intros Hopt. unfold raised_outside_fit.
  destruct (σ !! self) as [[c|s]|] eqn:Hself.
  - rewrite (fit_with_optimizer _ _ c _ _ _ optimizer) by done.
    destruct (py_float (factor c)) as [f|e1]; [|intros [= ->]; by left].
    destruct (py_int (patience c)) as [p|e1]; [|intros [= ->]; right; left; by eexists].
    destruct (lr_scheduler_ReduceLROnPlateau optimizer (mode c) f p) as [e1|s] eqn:Hs;
      [|done].
    intros [= <-]. right; right. by exists f, p, e1.
  - rewrite (fit_not_an_instance _ _ _ _ _ optimizer); [by intros [= <-]|done|].
    intros c. congruence.
  - rewrite (fit_not_an_instance _ _ _ _ _ optimizer); [by intros [= <-]|done|].
    intros c. congruence.
Qed.

Lemma coercions_never_raise_missing_optimizer (v : number) :
  py_float v ≠ Raise missing_optimizer ∧ py_int v ≠ Raise missing_optimizer.
Proof.
  split; destruct v as [n|x]; unfold py_float, py_int; try done.
  - by destruct (binary_normalize prec emax n 0 false).
  - by destruct (Prim2SF x).
Qed.

(** [C2] [fit] raises its precondition error exactly when the call has no
    [optimizer] key, whatever the instance (its mode, factor and patience),
    the heap and the arrays are, and then no object is changed.  [fit] makes
    no other check: every other exception of a call comes from outside [fit]
    (an attribute access, [float()], [int()], the library). *)
Theorem optimizer_is_the_only_gate σ self X y fit_params :
  ((fit self X y fit_params σ).2 = Raise missing_optimizer
   ↔ "optimizer" ∉ dom fit_params)
  ∧ ("optimizer" ∉ dom fit_params →
     fit self X y fit_params σ = (σ, Raise missing_optimizer))
  ∧ (∀ e, (fit self X y fit_params σ).2 = Raise e → e ≠ missing_optimizer →
          ∃ optimizer, fit_params !! "optimizer" = Some optimizer
                       ∧ raised_outside_fit σ self optimizer e).
Proof.
  assert ("optimizer" ∉ dom fit_params →
          fit self X y fit_params σ = (σ, Raise missing_optimizer)) as Habsent.
  { intros Hdom. apply fit_without_optimizer. by apply not_elem_of_dom. }
  assert (∀ optimizer e, fit_params !! "optimizer" = Some optimizer →
            (fit self X y fit_params σ).2 = Raise e → e ≠ missing_optimizer) as Hother.
  { intros optimizer e Hopt He ->.
    pose proof (fit_raises _ _ _ _ _ _ _ Hopt He) as Hout.
    unfold raised_outside_fit in Hout.
    destruct (σ !! self) as [[c|s]|]; [|done..].
    destruct Hout as [Hf|[(f & _ & Hp)|(f & p & e' & _ & _ & _ & He')]].
    - by destruct (coercions_never_raise_missing_optimizer (factor c)).
    - by destruct (coercions_never_raise_missing_optimizer (patience c)).
    - done. }
  split_and!; [split| |].
  - intros He Hdom. apply elem_of_dom in Hdom as [optimizer Hopt].
    by apply (Hother optimizer missing_optimizer).
  - intros Hdom. by rewrite Habsent.
  - done.
  - intros e He Hne.
    destruct (fit_params !! "optimizer") as [optimizer|] eqn:Hopt.
    + exists optimizer. split; [done|]. by eapply fit_raises.
    + rewrite fit_without_optimizer in He by done. by injection He as <-.
Qed.

(** [C4] A call of [fit] without optimizer on an instance that is not
    fitted raises the precondition error and leaves the instance as it was:
    its handle is still absent.  The heap as a whole is unchanged. *)
Theorem failed_fit_stays_unfit σ self c X y fit_params :
  σ !! self = Some (Component c) →
  scheduler c = None →
  "optimizer" ∉ dom fit_params →
  ∃ σ',
    fit self X y fit_params σ = (σ', Raise missing_optimizer)
    ∧ σ' = σ
    ∧ ∃ c', σ' !! self = Some (Component c') ∧ scheduler c' = None.
Proof.
  intros Hself Hnone Hdom. exists σ. split_and!.
  - apply fit_without_optimizer. by apply not_elem_of_dom.
  - done.
  - by exists c.
Qed.

Lemma fit_returns σ σ' self r X y fit_params :
  fit self X y fit_params σ = (σ', Return r) →
  ∃ optimizer c f p s,
    fit_params !! "optimizer" = Some optimizer
    ∧ σ !! self = Some (Component c)
    ∧ py_float (factor c) = Return f
    ∧ py_int (patience c) = Return p
    ∧ lr_scheduler_ReduceLROnPlateau optimizer (mode c) f p = inr s
    ∧ r = self
    ∧ σ' = <[self := Component (with_scheduler c (Some (fresh (dom σ))))]>
             (<[fresh (dom σ) := Scheduler s]> σ).
Proof.
  destruct (fit_params !! "optimizer") as [optimizer|] eqn:Hopt;
    [|by rewrite fit_without_optimizer].
  destruct (σ !! self) as [[c|s]|] eqn:Hself.
  - rewrite (fit_with_optimizer _ _ c _ _ _ optimizer) by done.
    destruct (py_float (factor c)) as [f|e] eqn:Hf; [|done].
    destruct (py_int (patience c)) as [p|e] eqn:Hp; [|done].
    destruct (lr_scheduler_ReduceLROnPlateau optimizer (mode c) f p) as [e|s] eqn:Hs;
      [done|].
    intros [= <- <-]. by exists optimizer, c, f, p, s.
  - rewrite (fit_not_an_instance _ _ _ _ _ optimizer); [done..|].
    intros c. congruence.
  - rewrite (fit_not_an_instance _ _ _ _ _ optimizer); [done..|].
    intros c. congruence.
Qed.

Lemma fresh_is_no_object σ l o : σ !! l = Some o → fresh (dom σ) ≠ l.
Proof.
  intros Hl Heq. apply (is_fresh (dom σ)). rewrite Heq.
  apply elem_of_dom. by eexists.
Qed.

(** [C3] The handle is absent in every instance that has just been
    constructed, whatever the arguments of the constructor are, and it is
    present right after every call of [fit] that returns. *)
Theorem handle_absent_then_present :
  (∀ σ m f p rs, ∃ self σ' c,
      __init__ m f p rs σ = (σ', Return self)
      ∧ σ' !! self = Some (Component c)
      ∧ scheduler c = None)
  ∧ (∀ σ σ' self r X y fit_params,
      fit self X y fit_params σ = (σ', Return r) →
      ∃ c l, σ' !! self = Some (Component c) ∧ scheduler c = Some l).
Proof.
  split.
  - intros σ m f p rs. eexists _, _, _. split; [reflexivity|].
    split; [apply lookup_insert_eq|done].
  - intros σ σ' self r X y fit_params Hfit.
    apply fit_returns in Hfit as (optimizer & c & f & p & s & _ & _ & _ & _ & _ & _ & ->).
    eexists _, _. split; [apply lookup_insert_eq|done].
Qed.

(** *** The pure methods *)

(** [C6] [transform(X)] returns [X] as it is and changes no object,
    whatever the array is (empty or not), whatever the instance is and
    whether it has been fitted or not. *)
Theorem transform_is_identity σ self X :
  transform self X σ = (σ, Return X).
Proof. reflexivity. Qed.

(** [C7] [get_properties] returns the same pair of metadata (a short name
    and a display name, and nothing else) for every argument and in every
    heap, so for every configuration of every instance, and it changes no
    object. *)
Theorem get_properties_is_constant :
  ∃ d : gmap string string,
    dom d = {[ "shortname"; "name" ]}
    ∧ d !! "shortname" = Some "CosineAnnealingWarmRestarts"
    ∧ d !! "name" = Some "Cosine Annealing WarmRestarts"
    ∧ ∀ dataset_properties σ, get_properties dataset_properties σ = (σ, Return d).
Proof.
  eexists. split_and!; [| | |intros; reflexivity]; by vm_compute.
Qed.

Lemma search_space_added :
  add_hyperparameters (E := LibraryException) ∅
    [CategoricalHyperparameter "mode" ["min"; "max"];
     UniformIntegerHyperparameter "patience" 5 20 10;
     UniformFloatHyperparameter "factor" 0.01 0.9 0.1]
  = Return (<["factor" := UniformFloatHyperparameter "factor" 0.01 0.9 0.1]>
             (<["patience" := UniformIntegerHyperparameter "patience" 5 20 10]>
                (<["mode" := CategoricalHyperparameter "mode" ["min"; "max"]]> ∅))).
Proof. by vm_compute. Qed.

(** [C5] For every value of [dataset_properties] ([None] and the empty
    dictionary among them) [get_hyperparameter_search_space] returns a
    configuration space with exactly three hyperparameters: the categorical
    [mode] over min and max, the integer [patience] from 5 to 20 with
    default 10, the float [factor] from 0.01 to 0.9 with default 0.1.  No
    object is changed. *)
Theorem search_space_is_fixed dataset_properties σ :
  ∃ cs : ConfigurationSpace,
    get_hyperparameter_search_space dataset_properties σ = (σ, Return cs)
    ∧ dom cs = {[ "mode"; "patience"; "factor" ]}
    ∧ cs !! "mode" = Some (CategoricalHyperparameter "mode" ["min"; "max"])
    ∧ cs !! "patience" = Some (UniformIntegerHyperparameter "patience" 5 20 10)
    ∧ cs !! "factor" = Some (UniformFloatHyperparameter "factor" 0.01 0.9 0.1).
Proof.
  eexists. split.
  - unfold get_hyperparameter_search_space, mbind, M_bind, lift.
    rewrite search_space_added. reflexivity.
  - split_and!; by vm_compute.
Qed.

(** *** Runs of calls *)

Lemma fit_raises_unchanged σ σ' self e X y fit_params :
  fit self X y fit_params σ = (σ', Raise e) → σ' = σ.
Proof.
  destruct (fit_params !! "optimizer") as [optimizer|] eqn:Hopt;
    [|rewrite fit_without_optimizer by done; congruence].
  destruct (σ !! self) as [[c|s]|] eqn:Hself.
  - rewrite (fit_with_optimizer _ _ c _ _ _ optimizer) by done.
    destruct (py_float (factor c)) as [f|e1]; [|congruence].
    destruct (py_int (patience c)) as [p|e1]; [|congruence].
    destruct (lr_scheduler_ReduceLROnPlateau optimizer (mode c) f p); [congruence|done].
  - rewrite (fit_not_an_instance _ _ _ _ _ optimizer); [congruence|done|].
    intros c. congruence.
  - rewrite (fit_not_an_instance _ _ _ _ _ optimizer); [congruence|done|].
    intros c. congruence.
Qed.

(** A call does nothing to the heap, or it allocates an instance that is
    not fitted, or it is a [fit] that allocates a scheduler and stores its
    handle. *)
Lemma exec_cases σ (a : call) :
  exec σ a = σ
  ∨ (∃ c, scheduler c = None ∧ exec σ a = <[fresh (dom σ) := Component c]> σ)
  ∨ (∃ self c s f p,
        σ !! self = Some (Component c)
        ∧ py_float (factor c) = Return f
        ∧ py_int (patience c) = Return p
        ∧ exec σ a = <[self := Component (with_scheduler c (Some (fresh (dom σ))))]>
                       (<[fresh (dom σ) := Scheduler s]> σ)).
Proof.
  destruct a as [m f p rs|self X y fit_params|self X|dp|dp]; cbn [exec].
  - right; left.
    by exists {| mode := m; factor := f; patience := p;
                 random_state := rs; scheduler := None |}.
  - destruct (fit self X y fit_params σ) as [σ' [r|e]] eqn:Hfit; simpl.
    + apply fit_returns in Hfit as (optimizer & c & f & p & s & _ & ? & ? & ? & _ & _ & ->).
      right; right. by exists self, c, s, f, p.
    + left. by eapply fit_raises_unchanged.
  - by left.
  - by left.
  - left. unfold get_hyperparameter_search_space, mbind, M_bind, lift.
    by rewrite search_space_added.
Qed.

Lemma with_scheduler_same c : with_scheduler c (scheduler c) = c.
Proof. by destruct c. Qed.

Lemma with_scheduler_twice c h h' :
  with_scheduler (with_scheduler c h) h' = with_scheduler c h'.
Proof. done. Qed.

Lemma exec_keeps_configuration σ self c (a : call) :
  σ !! self = Some (Component c) →
  ∃ h, exec σ a !! self = Some (Component (with_scheduler c h)).
Proof.
  intros Hself.
  destruct (exec_cases σ a) as [->|[(c' & _ & ->)|(self' & c' & s & f & p & Hself' & _ & _ & ->)]].
  - exists (scheduler c). by rewrite with_scheduler_same.
  - exists (scheduler c). rewrite with_scheduler_same, lookup_insert_ne; [done|].
    by eapply fresh_is_no_object.
  - destruct (decide (self' = self)) as [->|Hne].
    + rewrite Hself in Hself'. injection Hself' as <-.
      eexists. by rewrite lookup_insert_eq.
    + exists (scheduler c). rewrite with_scheduler_same, !lookup_insert_ne; [done| |done].
      by eapply fresh_is_no_object.
Qed.

Lemma run_keeps_configuration (calls : list call) σ self c :
  σ !! self = Some (Component c) →
  ∃ h, run σ calls !! self = Some (Component (with_scheduler c h)).
Proof.
  revert σ c. induction calls as [|a calls IH]; intros σ c Hself; simpl.
  - exists (scheduler c). by rewrite with_scheduler_same.
  - destruct (exec_keeps_configuration σ self c a Hself) as [h Hh].
    destruct (IH _ _ Hh) as [h' Hh']. exists h'.
    by rewrite with_scheduler_twice in Hh'.
Qed.

(** [C8] The mode, the factor, the patience and the random state of an
    instance are the arguments of its constructor for good: after the
    construction and any sequence of calls ([fit], [transform],
    [get_properties], [get_hyperparameter_search_space] on this instance or
    on any other object, constructions of other instances) the four
    attributes are what the constructor received; only the handle may
    differ from what the constructor left. *)
Theorem configuration_is_never_mutated σ0 σ self m f p rs (calls : list call) :
  __init__ m f p rs σ0 = (σ, Return self) →
  ∃ h, run σ calls !! self =
         Some (Component {| mode := m; factor := f; patience := p;
                            random_state := rs; scheduler := h |}).
Proof.
  intros [= <- <-].
  apply (run_keeps_configuration calls _ _
           {| mode := m; factor := f; patience := p;
              random_state := rs; scheduler := None |}).
  apply lookup_insert_eq.
Qed.

(** [C9] The arrays [X] and [y] play no part in [fit].  On one instance
    two calls that differ in the arrays only have the same outcome and leave
    the same heap.  On two instances with the same mode, factor and patience
    (in any two heaps) two calls with the same [fit_params] raise the same
    exception and change nothing, or both return their instance with a
    handle to a scheduler in the same state. *)
Theorem fit_ignores_the_arrays X1 y1 X2 y2 fit_params :
  (∀ σ self, fit self X1 y1 fit_params σ = fit self X2 y2 fit_params σ)
  ∧ (∀ σ1 σ2 self1 self2 c1 c2,
      σ1 !! self1 = Some (Component c1) →
      σ2 !! self2 = Some (Component c2) →
      mode c1 = mode c2 → factor c1 = factor c2 → patience c1 = patience c2 →
      match fit self1 X1 y1 fit_params σ1, fit self2 X2 y2 fit_params σ2 with
      | (σ1', Raise e1), (σ2', Raise e2) => e1 = e2 ∧ σ1' = σ1 ∧ σ2' = σ2
      | (σ1', Return r1), (σ2', Return r2) =>
          r1 = self1 ∧ r2 = self2
          ∧ ∃ l1 l2 s,
              σ1' !! self1 = Some (Component (with_scheduler c1 (Some l1)))
              ∧ σ2' !! self2 = Some (Component (with_scheduler c2 (Some l2)))
              ∧ σ1' !! l1 = Some (Scheduler s)
              ∧ σ2' !! l2 = Some (Scheduler s)
      | _, _ => False
      end).
Proof.
  split; [done|].
  intros σ1 σ2 self1 self2 c1 c2 H1 H2 Hm Hf Hp.
  destruct (fit_params !! "optimizer") as [optimizer|] eqn:Hopt.
  - rewrite (fit_with_optimizer σ1 _ c1 _ _ _ optimizer) by done.
    rewrite (fit_with_optimizer σ2 _ c2 _ _ _ optimizer) by done.
    rewrite Hm, Hf, Hp.
    destruct (py_float (factor c2)) as [f|e]; [|done].
    destruct (py_int (patience c2)) as [p|e]; [|done].
    destruct (lr_scheduler_ReduceLROnPlateau optimizer (mode c2) f p) as [e|s]; [done|].
    cbv zeta. split_and!; [done..|]. exists (fresh (dom σ1)), (fresh (dom σ2)), s.
    split_and!.
    + apply lookup_insert_eq.
    + apply lookup_insert_eq.
    + rewrite lookup_insert_ne by (symmetry; by eapply fresh_is_no_object).
      apply lookup_insert_eq.
    + rewrite lookup_insert_ne by (symmetry; by eapply fresh_is_no_object).
      apply lookup_insert_eq.
  - by rewrite !fit_without_optimizer.
Qed.





(** *** More about [fit]: what it never raises, what it allocates *)

Lemma coercions_never_raise_KeyError (v : number) key :
  py_float v ≠ Raise (KeyError key) ∧ py_int v ≠ Raise (KeyError key).
Proof.
  split; destruct v as [n|x]; unfold py_float, py_int; try done.
  - by destruct (binary_normalize prec emax n 0 false).
  - by destruct (Prim2SF x).
Qed.

(** [X1] No exception of [fit] comes from the subscript
    [fit_params['optimizer']]: it is evaluated only after the membership test,
    so it finds the key.  Whatever the arguments and the heap are, what [fit]
    raises is no [KeyError] of its own code or of the coercions.  (An exception
    of the library is passed on as it is, whatever its class: it is a
    [LibraryError] here and this says nothing about it.) *)
Theorem fit_never_raises_KeyError σ self X y fit_params e :
  (fit self X y fit_params σ).2 = Raise e →
  is_KeyError e = false.
Proof.
  destruct e as [msg|msg|key|name|e']; try done. intros He.
  destruct (fit_params !! "optimizer") as [optimizer|] eqn:Hopt.
  - pose proof (fit_raises _ _ _ _ _ _ _ Hopt He) as Hout.
    unfold raised_outside_fit in Hout.
    destruct (σ !! self) as [[c|s]|]; [|done..].
    destruct Hout as [Hf|[(f & _ & Hp)|(f & p & e' & _ & _ & _ & He')]].
    + by destruct (coercions_never_raise_KeyError (factor c) key).
    + by destruct (coercions_never_raise_KeyError (patience c) key).
    + done.
  - by rewrite fit_without_optimizer in He.
Qed.

(** [X7] A call of [fit] that returns has added exactly one object to the
    heap, the scheduler; a call of [fit] that raises has left the heap as it
    was. *)
Theorem fit_allocates_one_object σ self X y fit_params :
  match fit self X y fit_params σ with
  | (σ', Return _) => ∃ l s, (l ∉ dom σ) ∧ σ' !! l = Some (Scheduler s)
                             ∧ dom σ' = {[ l ]} ∪ dom σ
  | (σ', Raise _) => σ' = σ
  end.
Proof.
  destruct (fit self X y fit_params σ) as [σ' [r|e]] eqn:Hfit.
  - apply fit_returns in Hfit as (optimizer & c & f & p & s & _ & Hself & _ & _ & _ & _ & ->).
    pose proof (fresh_is_no_object _ _ _ Hself) as Hne.
    exists (fresh (dom σ)), s. split_and!.
    + apply is_fresh.
    + rewrite lookup_insert_ne by done. apply lookup_insert_eq.
    + rewrite !dom_insert_L.
      assert (self ∈ dom σ) as Hin by (apply elem_of_dom; by eexists).
      apply set_eq. intros z. rewrite !elem_of_union, !elem_of_singleton.
      split; [intros [->|[->|Hz]]|intros [->|Hz]]; auto.
  - by eapply fit_raises_unchanged.
Qed.

Lemma py_int_of_finite (v : number) :
  py_finite v = true → ∃ p, py_int v = Return p.
Proof.
  destruct v as [n|x]; simpl; [by eexists|].
  intros [Hnan Hinf]%andb_true_iff.
  apply negb_true_iff in Hnan, Hinf.
  unfold Prim2SF. rewrite Hnan, Hinf.
  destruct (is_zero x); [by eexists|].
  destruct (Z.frexp x) as [r e].
  destruct (shr_fexp prec emax _ _ _) as [shr e'].
  destruct (shr_m shr); by eexists.
Qed.

(** [X8] When the factor of the instance is a float and its patience is
    an int or a float other than NaN and the infinities, a call of [fit] with
    an optimizer hands the factor to the library as it is, never fails in a
    coercion, and has two outcomes only: it returns the instance, or it raises
    the error of the library and changes nothing. *)
Theorem fit_fails_only_in_library σ self c X y fit_params optimizer x :
  σ !! self = Some (Component c) →
  fit_params !! "optimizer" = Some optimizer →
  factor c = PyFloat x →
  py_finite (patience c) = true →
  ∃ p,
    py_int (patience c) = Return p
    ∧ ((∃ s σ', lr_scheduler_ReduceLROnPlateau optimizer (mode c) x p = inr s
                ∧ fit self X y fit_params σ = (σ', Return self))
       ∨ (∃ e, lr_scheduler_ReduceLROnPlateau optimizer (mode c) x p = inl e
               ∧ fit self X y fit_params σ = (σ, Raise (LibraryError e)))).
Proof.
  intros Hself Hopt Hfactor Hfinite.
  destruct (py_int_of_finite _ Hfinite) as [p Hp]. exists p. split; [done|].
  rewrite (fit_with_optimizer _ _ c _ _ _ optimizer) by done.
  rewrite Hfactor, Hp. simpl.
  destruct (lr_scheduler_ReduceLROnPlateau optimizer (mode c) x p) as [e|s].
  - right. by exists e.
  - left. by eexists _, _.
Qed.

(** *** More about runs: what the calls keep *)

Lemma exec_keeps_fitted σ self c h (a : call) :
  σ !! self = Some (Component c) → scheduler c = Some h →
  ∃ c' h', exec σ a !! self = Some (Component c') ∧ scheduler c' = Some h'.
Proof.
  intros Hself Hh.
  destruct (exec_cases σ a) as [->|[(c0 & _ & ->)|(self0 & c0 & s & f & p & Hself0 & _ & _ & ->)]].
  - by exists c, h.
  - exists c, h. split; [|done]. rewrite lookup_insert_ne; [done|].
    by eapply fresh_is_no_object.
  - destruct (decide (self0 = self)) as [->|Hne].
    + eexists _, _. by rewrite lookup_insert_eq.
    + exists c, h. split; [|done]. rewrite !lookup_insert_ne; [done| |done].
      by eapply fresh_is_no_object.
Qed.

(** [X2] There is no way back from fitted: once the handle of an instance
    is present, it is present after every further sequence of calls
    (constructions, [fit] with or without optimizer on any instance, the other
    methods). *)
Theorem fitted_stays_fitted (calls : list call) σ self c h :
  σ !! self = Some (Component c) →
  scheduler c = Some h →
  ∃ c' h', run σ calls !! self = Some (Component c') ∧ scheduler c' = Some h'.
Proof.
  revert σ c h. induction calls as [|a calls IH]; intros σ c h Hself Hh.
  - by exists c, h.
  - destruct (exec_keeps_fitted σ self c h a Hself Hh) as (c' & h' & Hself' & Hh').
    exact (IH _ _ _ Hself' Hh').
Qed.

Lemma exec_of_other_calls σ self c (a : call) :
  fits self a = false →
  σ !! self = Some (Component c) →
  exec σ a !! self = Some (Component c).
Proof.
  intros Ha Hself.
  pose proof (fresh_is_no_object _ _ _ Hself) as Hfresh.
  destruct a as [m f p rs|self' X y fit_params|self' X|dp|dp]; cbn [exec].
  - unfold __init__, new. cbn [fst]. by rewrite lookup_insert_ne.
  - cbn [fits] in Ha. apply bool_decide_eq_false in Ha.
    destruct (fit self' X y fit_params σ) as [σ' [r|e]] eqn:Hfit; cbn [fst].
    + apply fit_returns in Hfit as (? & ? & ? & ? & ? & _ & _ & _ & _ & _ & _ & ->).
      by rewrite !lookup_insert_ne.
    + by rewrite (fit_raises_unchanged _ _ _ _ _ _ _ Hfit).
  - done.
  - done.
  - unfold get_hyperparameter_search_space, mbind, M_bind, lift.
    by rewrite search_space_added.
Qed.

(** [X5] An instance changes in a call of [fit] on this very instance
    and in no other call: a sequence of calls none of which is a [fit] on the
    instance (constructions, [fit] on other instances, the other methods on any
    instance) leaves all its attributes, the handle among them, as they
    were. *)
Theorem other_calls_leave_the_instance (calls : list call) σ self c :
  forallb (λ a, negb (fits self a)) calls = true →
  σ !! self = Some (Component c) →
  run σ calls !! self = Some (Component c).
Proof.
  revert σ. induction calls as [|a calls IH]; intros σ Hcalls Hself; [done|].
  cbn [forallb] in Hcalls. apply andb_true_iff in Hcalls as [Ha Hcalls].
  apply negb_true_iff in Ha.
  apply IH; [done|]. by apply exec_of_other_calls.
Qed.

Lemma exec_keeps_schedulers σ l s (a : call) :
  σ !! l = Some (Scheduler s) → exec σ a !! l = Some (Scheduler s).
Proof.
  intros Hl.
  destruct (exec_cases σ a) as [->|[(c0 & _ & ->)|(self0 & c0 & s0 & f & p & Hself0 & _ & _ & ->)]].
  - done.
  - rewrite lookup_insert_ne; [done|]. by eapply fresh_is_no_object.
  - rewrite !lookup_insert_ne; [done| |congruence].
    by eapply fresh_is_no_object.
Qed.

(** [X6] The component does not change or remove a scheduler object in a
    call on something else: after any sequence of calls none of which is a
    [fit] with this scheduler object in the place of [self], the object is in
    the heap in the state the library built it in.  So a call of [fit] that
    replaces the handle of an instance leaves the earlier scheduler as it
    was. *)
Theorem schedulers_are_never_changed (calls : list call) σ l s :
  forallb (λ a, negb (fits l a)) calls = true →
  σ !! l = Some (Scheduler s) →
  run σ calls !! l = Some (Scheduler s).
Proof.
  revert σ. induction calls as [|a calls IH]; intros σ Hcalls Hl; [done|].
  cbn [forallb] in Hcalls. apply andb_true_iff in Hcalls as [_ Hcalls].
  apply IH; [done|]. by apply exec_keeps_schedulers.
Qed.

(** *** The heaps of a program: handles and configurations agree *)

Lemma exec_cases_built σ (a : call) :
  exec σ a = σ
  ∨ (∃ c, scheduler c = None ∧ exec σ a = <[fresh (dom σ) := Component c]> σ)
  ∨ (∃ self c s f p optimizer,
        σ !! self = Some (Component c)
        ∧ py_float (factor c) = Return f
        ∧ py_int (patience c) = Return p
        ∧ lr_scheduler_ReduceLROnPlateau optimizer (mode c) f p = inr s
        ∧ exec σ a = <[self := Component (with_scheduler c (Some (fresh (dom σ))))]>
                       (<[fresh (dom σ) := Scheduler s]> σ)).
Proof.
  destruct a as [m f p rs|self X y fit_params|self X|dp|dp]; cbn [exec].
  - right; left.
    by exists {| mode := m; factor := f; patience := p;
                 random_state := rs; scheduler := None |}.
  - destruct (fit self X y fit_params σ) as [σ' [r|e]] eqn:Hfit; simpl.
    + apply fit_returns in Hfit
        as (optimizer & c & f & p & s & _ & ? & ? & ? & ? & _ & ->).
      right; right. by exists self, c, s, f, p, optimizer.
    + left. by eapply fit_raises_unchanged.
  - by left.
  - by left.
  - left. unfold get_hyperparameter_search_space, mbind, M_bind, lift.
    by rewrite search_space_added.
Qed.

(** The instances of the heap a [fit] leaves: the fitted one, or one that
    was there before. *)
Lemma lookup_after_fit σ self0 c0 s0 self c :
  σ !! self0 = Some (Component c0) →
  (<[self0 := Component (with_scheduler c0 (Some (fresh (dom σ))))]>
     (<[fresh (dom σ) := Scheduler s0]> σ)) !! self = Some (Component c) →
  (self = self0 ∧ c = with_scheduler c0 (Some (fresh (dom σ))))
  ∨ (self ≠ self0 ∧ self ≠ fresh (dom σ) ∧ σ !! self = Some (Component c)).
Proof.
  intros Hself0 Hself.
  destruct (decide (self0 = self)) as [<-|Hne].
  - rewrite lookup_insert_eq in Hself. left. split; congruence.
  - rewrite lookup_insert_ne in Hself by done.
    destruct (decide (fresh (dom σ) = self)) as [<-|Hne'].
    + rewrite lookup_insert_eq in Hself. congruence.
    + rewrite lookup_insert_ne in Hself by done. right. by split_and!.
Qed.

Lemma exec_keeps_built σ (a : call) :
  built_from_configuration σ ∧ unshared σ →
  built_from_configuration (exec σ a) ∧ unshared (exec σ a).
Proof.
  intros [Hbuilt Hun].
  destruct (exec_cases_built σ a)
    as [->|[(c0 & Hc0 & ->)
           |(self0 & c0 & s0 & f0 & p0 & o0 & Hself0 & Hf0 & Hp0 & Hs0 & ->)]];
    [done| |].
  - (* a construction *)
    assert (∀ self c h,
              (<[fresh (dom σ) := Component c0]> σ) !! self = Some (Component c) →
              scheduler c = Some h → σ !! self = Some (Component c)) as Hold.
    { intros self c h Hself Hh.
      destruct (decide (fresh (dom σ) = self)) as [<-|Hne].
      - rewrite lookup_insert_eq in Hself. congruence.
      - by rewrite lookup_insert_ne in Hself. }
    split.
    + intros self c h Hself Hh.
      destruct (Hbuilt _ _ _ (Hold _ _ _ Hself Hh) Hh)
        as (o & f & p & s & Hf & Hp & Hs & Hobj).
      exists o, f, p, s. split_and!; [done..|].
      rewrite lookup_insert_ne; [done|]. by eapply fresh_is_no_object.
    + intros self1 self2 c1 c2 h H1 H2 Hh1 Hh2.
      by apply (Hun self1 self2 c1 c2 h); [eapply Hold..| |].
  - (* a fit that returns *)
    pose proof (fresh_is_no_object _ _ _ Hself0) as Hfresh.
    assert (∀ self c, σ !! self = Some (Component c) →
                      scheduler c ≠ Some (fresh (dom σ))) as Hnew.
    { intros self c Hself Hh.
      destruct (Hbuilt _ _ _ Hself Hh) as (? & ? & ? & s & _ & _ & _ & Hobj).
      by eapply fresh_is_no_object. }
    split.
    + intros self c h Hself Hh.
      destruct (lookup_after_fit _ _ _ _ _ _ Hself0 Hself) as [[-> ->]|(Hne & Hne' & Hold)].
      * injection Hh as <-. exists o0, f0, p0, s0. split_and!; [done..|].
        rewrite lookup_insert_ne by done. apply lookup_insert_eq.
      * destruct (Hbuilt _ _ _ Hold Hh) as (o & f & p & s & Hf & Hp & Hs & Hobj).
        exists o, f, p, s. split_and!; [done..|].
        rewrite !lookup_insert_ne; [done| |congruence].
        by eapply fresh_is_no_object.
    + intros self1 self2 c1 c2 h H1 H2 Hh1 Hh2.
      destruct (lookup_after_fit _ _ _ _ _ _ Hself0 H1) as [[-> ->]|(_ & _ & Hold1)];
        destruct (lookup_after_fit _ _ _ _ _ _ Hself0 H2) as [[-> ->]|(_ & _ & Hold2)].
      * done.
      * injection Hh1 as <-. by destruct (Hnew _ _ Hold2).
      * injection Hh2 as <-. by destruct (Hnew _ _ Hold1).
      * by apply (Hun self1 self2 c1 c2 h).
Qed.

Lemma reachable_built σ :
  reachable σ → built_from_configuration σ ∧ unshared σ.
Proof.
  intros [calls ->].
  assert (∀ σ0, built_from_configuration σ0 ∧ unshared σ0 →
                built_from_configuration (run σ0 calls) ∧ unshared (run σ0 calls)) as Hrun.
  { induction calls as [|a calls IH]; intros σ0 H0; [done|].
    apply IH. by apply exec_keeps_built. }
  apply Hrun. split.
  - intros self c h Hself. by rewrite lookup_empty in Hself.
  - intros self1 self2 c1 c2 h Hself. by rewrite lookup_empty in Hself.
Qed.

(** [X3] In every heap a program can be in, the handle of a fitted
    instance refers to a scheduler object, and this scheduler is what the
    library built, for some optimizer, from the mode the instance holds now,
    its factor coerced to float and its patience coerced to int: the scheduler
    and the configuration of an instance never disagree. *)
Theorem handle_agrees_with_configuration σ self c h :
  reachable σ →
  σ !! self = Some (Component c) →
  scheduler c = Some h →
  ∃ optimizer f p s,
    py_float (factor c) = Return f
    ∧ py_int (patience c) = Return p
    ∧ lr_scheduler_ReduceLROnPlateau optimizer (mode c) f p = inr s
    ∧ σ !! h = Some (Scheduler s).
Proof.
  intros Hreach. by apply (proj1 (reachable_built σ Hreach)).
Qed.

(** [X4] In every heap a program can be in, two distinct instances never
    hold the same handle: every fitted instance has a scheduler object of its
    own, also when the instances were fitted with the same optimizer. *)
Theorem handles_are_not_shared σ self1 self2 c1 c2 h1 h2 :
  reachable σ →
  σ !! self1 = Some (Component c1) →
  σ !! self2 = Some (Component c2) →
  scheduler c1 = Some h1 →
  scheduler c2 = Some h2 →
  self1 ≠ self2 →
  h1 ≠ h2.
Proof.
  intros Hreach H1 H2 Hh1 Hh2 Hne <-.
  by apply Hne, (proj2 (reachable_built σ Hreach) self1 self2 c1 c2 h1).
Qed.

End Properties.

(** ** The scenario, run *)

Section Runs.

#[local] Existing Instance Sample.runtime.

Import Scenario.

Example construct_run :
  __init__ "min" (PyFloat 0.5) (PyInt 10) None ∅ = (unfit, Return adapter)
  ∧ unfit !! adapter = Some (Component configuration).
Proof. split; by vm_compute. Qed.

Example fit_run :
  fit adapter [] [] context unfit = (fitted, Return adapter)
  ∧ fitted !! adapter = Some (Component (with_scheduler configuration (Some 2%positive)))
  ∧ fitted !! 2%positive = Some (Scheduler built).
Proof. split_and!; by vm_compute. Qed.

Example fit_without_optimizer_run :
  fit adapter [] [] ∅ unfit = (unfit, Raise missing_optimizer).
Proof. by vm_compute. Qed.

Example fit_with_none_run :
  fit adapter [] [] {[ "optimizer" := Sample.NoneValue ]} unfit
  = (unfit, Raise (LibraryError Sample.NotAnOptimizer)).
Proof. by vm_compute. Qed.

(** Configurations the library or a coercion refuses: the exception comes
    out of [fit] and nothing is stored. *)
Example fit_with_large_factor_run :
  let σ := (__init__ "min" (PyFloat 1.5) (PyInt 10) None ∅).1 in
  fit adapter [] [] context σ = (σ, Raise (LibraryError Sample.FactorTooLarge)).
Proof. by vm_compute. Qed.

Example fit_with_nan_patience_run :
  let σ := (__init__ "min" (PyFloat 0.5) (PyFloat nan) None ∅).1 in
  fit adapter [] [] context σ
  = (σ, Raise (ValueError "cannot convert float NaN to integer")).
Proof. by vm_compute. Qed.

Example coercions_run :
  py_int (PyFloat 10.7) = Return 10
  ∧ py_int (PyFloat (-10.7)) = Return (-10)
  ∧ py_int (PyFloat nan) = Raise (ValueError "cannot convert float NaN to integer")
  ∧ py_float (PyInt 1) = Return 1%float
  ∧ py_float (PyInt (2 ^ 53 + 1)) = Return 9007199254740992%float
  ∧ py_float (PyInt (10 ^ 400)) = Raise (OverflowError "int too large to convert to float").
Proof. split_and!; by vm_compute. Qed.

(** The theorems at the scenario. *)

Lemma fit_builds_and_stores_witness :
  ∃ l σ',
    fit adapter [] [] context unfit = (σ', Return adapter)
    ∧ (l ∉ dom unfit)
    ∧ σ' !! l = Some (Scheduler built)
    ∧ σ' !! adapter =
        Some (Component {| mode := "min"; factor := PyFloat 0.5; patience := PyInt 10;
                           random_state := None; scheduler := Some l |})
    ∧ ∀ l', l' ≠ l → l' ≠ adapter → σ' !! l' = unfit !! l'.
Proof.
  destruct (fit_builds_and_stores (RT := Sample.runtime) unfit adapter configuration
              [] [] context Sample.sgd) as [Hbuilt _]; [by vm_compute..|].
  apply (Hbuilt 0.5%float 10 built); by vm_compute.
Defined.

Lemma optimizer_is_the_only_gate_witness :
  fit adapter [] [] ∅ unfit = (unfit, Raise missing_optimizer).
Proof.
  apply (optimizer_is_the_only_gate (RT := Sample.runtime) unfit adapter [] [] ∅). by vm_compute.
Defined.

Lemma handle_absent_then_present_witness :
  ∃ c l, fitted !! adapter = Some (Component c) ∧ scheduler c = Some l.
Proof.
  apply (proj2 (handle_absent_then_present (RT := Sample.runtime)) unfit fitted adapter adapter [] [] context).
  by vm_compute.
Defined.

Lemma failed_fit_stays_unfit_witness :
  ∃ σ',
    fit adapter [] [] ∅ unfit = (σ', Raise missing_optimizer)
    ∧ σ' = unfit
    ∧ ∃ c', σ' !! adapter = Some (Component c') ∧ scheduler c' = None.
Proof.
  apply (failed_fit_stays_unfit (RT := Sample.runtime) unfit adapter configuration [] [] ∅); by vm_compute.
Defined.

Lemma configuration_is_never_mutated_witness :
  ∃ h, run unfit [Fit adapter [] [] ∅; Fit adapter [] [] context;
                  Transform adapter []; GetProperties None;
                  GetHyperparameterSearchSpace (Some ∅);
                  Construct "max" (PyInt 2) (PyFloat 3.5) (Some 7);
                  Fit adapter [[1.0%float]] [[0.0%float]] context] !! adapter =
         Some (Component {| mode := "min"; factor := PyFloat 0.5; patience := PyInt 10;
                            random_state := None; scheduler := h |}).
Proof.
  apply (configuration_is_never_mutated (RT := Sample.runtime) ∅ unfit adapter "min" (PyFloat 0.5) (PyInt 10) None).
  by vm_compute.
Defined.

Lemma fit_ignores_the_arrays_witness :
  match fit adapter [] [] context unfit,
        fit adapter [[1.0%float]] [[0.0%float]] context fitted with
  | (σ1', Raise e1), (σ2', Raise e2) => e1 = e2 ∧ σ1' = unfit ∧ σ2' = fitted
  | (σ1', Return r1), (σ2', Return r2) =>
      r1 = adapter ∧ r2 = adapter
      ∧ ∃ l1 l2 s,
          σ1' !! adapter = Some (Component (with_scheduler configuration (Some l1)))
          ∧ σ2' !! adapter =
              Some (Component (with_scheduler (with_scheduler configuration (Some 2%positive))
                                 (Some l2)))
          ∧ σ1' !! l1 = Some (Scheduler s)
          ∧ σ2' !! l2 = Some (Scheduler s)
  | _, _ => False
  end.
Proof.
  apply (proj2 (fit_ignores_the_arrays (RT := Sample.runtime) [] [] [[1.0%float]] [[0.0%float]] context)
           unfit fitted adapter adapter configuration
           (with_scheduler configuration (Some 2%positive))); by vm_compute.
Defined.


Lemma fit_never_raises_KeyError_witness :
  is_KeyError (RT := Sample.runtime) missing_optimizer = false.
Proof.
  apply (fit_never_raises_KeyError (RT := Sample.runtime) unfit adapter [] [] ∅).
  by vm_compute.
Defined.

Lemma fitted_stays_fitted_witness :
  ∃ c' h', run fitted failing !! adapter = Some (Component c')
           ∧ scheduler c' = Some h'.
Proof.
  apply (fitted_stays_fitted (RT := Sample.runtime) failing fitted adapter
           (with_scheduler configuration (Some 2%positive)) 2%positive);
    by vm_compute.
Defined.

Lemma handle_agrees_with_configuration_witness :
  ∃ optimizer f p s,
    py_float (PyFloat 0.25) = Return f
    ∧ py_int (PyFloat 7.9) = Return p
    ∧ lr_scheduler_ReduceLROnPlateau optimizer "max" f p = inr s
    ∧ both_fitted !! 4%positive = Some (Scheduler s).
Proof.
  assert (reachable both_fitted) as Hreach.
  { by exists (history ++ more). }
  apply (handle_agrees_with_configuration (RT := Sample.runtime) both_fitted second
           (with_scheduler second_configuration (Some 4%positive)) 4%positive Hreach);
    by vm_compute.
Defined.

Lemma handles_are_not_shared_witness : 2%positive ≠ 4%positive.
Proof.
  assert (reachable both_fitted) as Hreach.
  { by exists (history ++ more). }
  apply (handles_are_not_shared (RT := Sample.runtime) both_fitted adapter second
           (with_scheduler configuration (Some 2%positive))
           (with_scheduler second_configuration (Some 4%positive))
           2%positive 4%positive Hreach); by vm_compute.
Defined.

Lemma other_calls_leave_the_instance_witness :
  run fitted (more ++ [Transform adapter []; GetProperties None]) !! adapter
  = Some (Component (with_scheduler configuration (Some 2%positive))).
Proof.
  apply (other_calls_leave_the_instance (RT := Sample.runtime)); by vm_compute.
Defined.

Lemma schedulers_are_never_changed_witness :
  run fitted (Fit adapter [] [] context :: more) !! 2%positive = Some (Scheduler built).
Proof.
  apply (schedulers_are_never_changed (RT := Sample.runtime)); by vm_compute.
Defined.

Lemma fit_fails_only_in_library_witness :
  ∃ p,
    py_int (PyFloat 7.9) = Return p
    ∧ ((∃ s σ', lr_scheduler_ReduceLROnPlateau Sample.NoneValue "max" 0.25%float p = inr s
                ∧ fit second [] [] {[ "optimizer" := Sample.NoneValue ]} both_fitted
                  = (σ', Return second))
       ∨ (∃ e, lr_scheduler_ReduceLROnPlateau Sample.NoneValue "max" 0.25%float p = inl e
               ∧ fit second [] [] {[ "optimizer" := Sample.NoneValue ]} both_fitted
                 = (both_fitted, Raise (LibraryError e)))).
Proof.
  apply (fit_fails_only_in_library (RT := Sample.runtime) both_fitted second
           (with_scheduler second_configuration (Some 4%positive)));
    by vm_compute.
Defined.

(** The claims [C1] and [C10] as they were made, without the condition on
    the library: a configuration the library refuses, and a second call of
    [fit] that the library refuses. *)

Lemma fit_builds_and_stores_counterexample :
  let σ := (__init__ "min" (PyFloat 1.0) (PyInt 10) None ∅).1 in
  context !! "optimizer" = Some Sample.sgd
  ∧ σ !! adapter =
      Some (Component {| mode := "min"; factor := PyFloat 1.0; patience := PyInt 10;
                         random_state := None; scheduler := None |})
  ∧ fit adapter [] [] context σ = (σ, Raise (LibraryError Sample.FactorTooLarge))
  ∧ ¬ (∃ σ', fit adapter [] [] context σ = (σ', Return adapter)).
Proof.
  cbv zeta. split_and!; [by vm_compute..|].
  intros [σ' Hfit]. vm_compute in Hfit. discriminate Hfit.
Qed.


End Runs.
